(** * AutoQASM typed parameters and the gate goldens

    A shallow embedding of
    [src/braket/experimental/autoqasm/parameters.py] (the class
    [TypedParameter]) together with the Python run-time notions its
    constructor relies on: values and their [==], the [in] operator on
    lists, [str()] as used by f-strings, instances with an attribute
    dictionary living in a heap, and exceptions.

    The second half models the program-conversion context exercised by
    [test/unit_tests/braket/experimental/autoqasm/test_aq_gates.py]. *)

From Stdlib Require Import ZArith String List Ascii Bool Lia DecimalString.
From stdpp Require Import base option gmap strings list fin_maps.

Local Open Scope string_scope.

(** ** Python values *)

(** A class object.  Classes compare by identity; a class is identified
    here by the module that defines it and its qualified name, builtins
    by their name alone. *)
Inductive pyclass : Type :=
| Builtin (name : string)
| Defined (module qualname : string).

#[global] Instance pyclass_eq_dec : EqDecision pyclass.
Proof. solve_decision. Defined.

(** The values that can be passed where the constructor expects its
    [type] argument: class objects, [None], and plain data. *)
Inductive value : Type :=
| PyNone
| PyBool (b : bool)
| PyInt (n : Z)
| PyStr (s : string)
| PyClass (c : pyclass).

#[global] Instance value_eq_dec : EqDecision value.
Proof. solve_decision. Defined.

(** [repr] of a class object, which is also its [str]. *)
Definition class_repr (c : pyclass) : string :=
  match c with
  | Builtin n => "<class '" +:+ n +:+ "'>"
  | Defined m q => "<class '" +:+ m +:+ "." +:+ q +:+ "'>"
  end.

(** [str(x)], the conversion an f-string field [{x}] applies. *)
Definition py_str (x : value) : string :=
  match x with
  | PyNone => "None"
  | PyBool true => "True"
  | PyBool false => "False"
  | PyInt n => NilZero.string_of_int (Z.to_int n)
  | PyStr s => s
  | PyClass c => class_repr c
  end.

(** [x == y].  [bool] is a subclass of [int], so [True == 1]; a class
    object is equal to itself only. *)
Definition py_eq (x y : value) : bool :=
  match x, y with
  | PyNone, PyNone => true
  | PyBool a, PyBool b => Bool.eqb a b
  | PyBool a, PyInt n => (Z.b2z a =? n)%Z
  | PyInt n, PyBool a => (n =? Z.b2z a)%Z
  | PyInt a, PyInt b => (a =? b)%Z
  | PyStr a, PyStr b => String.eqb a b
  | PyClass a, PyClass b => bool_decide (a = b)
  | _, _ => false
  end.

(** [x in l] for a list [l]: some element is [x] or equal to [x].
    [py_eq] is reflexive on these values, so identity adds nothing. *)
Definition py_in (x : value) (l : list value) : bool :=
  existsb (fun e => py_eq x e) l.

Module builtins.
Definition float : value := PyClass (Builtin "float").
Definition int : value := PyClass (Builtin "int").
Definition bool : value := PyClass (Builtin "bool").
Definition complex : value := PyClass (Builtin "complex").
End builtins.

Module types.
(** Modelled from the spec: [FloatVar], the "float-variable" marker.
    [parameters.py] imports it from [braket.experimental.autoqasm.types];
    the module that defines it is not among the sources (the package's
    [__init__.py] lists only [map_type], [wrap_value], [is_qasm_type] and
    [qasm_range]), so it is taken as the class that import names. *)
Definition FloatVar : value :=
  PyClass (Defined "braket.experimental.autoqasm.types" "FloatVar").

(** Modelled from the spec: [IntVar], the "int-variable" marker, imported
    and taken like [FloatVar]. *)
Definition IntVar : value :=
  PyClass (Defined "braket.experimental.autoqasm.types" "IntVar").
End types.

(** ** Instances, the heap and exceptions *)

Definition loc := positive.

(** An instance: the name of its class ([self.__class__.__name__]) and
    its attribute dictionary ([self.__dict__]). *)
Record object : Type := Object {
  ob_class : string;
  ob_dict : gmap string value
}.

Inductive exn : Type :=
| ValueError (msg : string)
| AttributeError (attr : string)
| ReferenceError (l : loc).

Inductive outcome (A : Type) : Type :=
| Returned (a : A)
| Raised (e : exn).
Arguments Returned {A} a.
Arguments Raised {A} e.

(** A computation reads and updates the heap and either returns or
    raises; the heap it leaves is observable in both cases. *)
Definition M (A : Type) : Type := gmap loc object → outcome A * gmap loc object.

#[global] Instance M_ret : MRet M := λ A a h, (Returned a, h).
#[global] Instance M_bind : MBind M := λ A B f m h,
  match m h with
  | (Returned a, h') => f a h'
  | (Raised e, h') => (Raised e, h')
  end.
#[global] Instance M_throw : MThrow exn M := λ A e h, (Raised e, h).

(** The instance a reference denotes. *)
Definition deref (self : loc) : M object := λ h,
  match h !! self with
  | Some o => (Returned o, h)
  | None => (Raised (ReferenceError self), h)
  end.

(** [self.__class__.__name__] *)
Definition class_name (self : loc) : M string :=
  o ← deref self; mret (ob_class o).

(** Reading an instance attribute held in [__dict__]. *)
Definition load (self : loc) (attr : string) : M value :=
  o ← deref self;
  match ob_dict o !! attr with
  | Some v => mret v
  | None => mthrow (AttributeError attr)
  end.

(** Replacing the instance a reference denotes. *)
Definition update (self : loc) (o : object) : M unit :=
  λ h, (Returned tt, <[self := o]> h).

(** Writing into [__dict__]. *)
Definition store (self : loc) (attr : string) (v : value) : M unit :=
  o ← deref self;
  update self (Object (ob_class o) (<[attr := v]> (ob_dict o))).

(** Removing from [__dict__]. *)
Definition remove (self : loc) (attr : string) : M unit :=
  o ← deref self;
  match ob_dict o !! attr with
  | Some _ => update self (Object (ob_class o) (delete attr (ob_dict o)))
  | None => mthrow (AttributeError attr)
  end.

(** The properties of the classes at hand: [type], defined in
    [parameters.py] with a getter only, and [name], which the base class
    exposes (modelled from the spec, which calls the instances
    immutable). *)
Definition properties : list string := ["name"; "type"].

(** [self.attr = v]: a property without a setter refuses the
    assignment, any other name is stored in the instance. *)
Definition setattr (self : loc) (attr : string) (v : value) : M unit :=
  if bool_decide (attr ∈ properties) then mthrow (AttributeError attr)
  else store self attr v.


(** Calling a class: a fresh instance is allocated, the initializer runs
    on it, and the instance is the result.  When the initializer raises,
    the exception propagates and the instance, which nothing refers to,
    is released. *)
Definition instantiate (cls : string) (init : loc → M unit) : M loc := λ h,
  let self := fresh (dom h) in
  match init self (<[self := Object cls ∅]> h) with
  | (Returned _, h') => (Returned self, h')
  | (Raised e, h') => (Raised e, delete self h')
  end.

(** ** The base class *)

Module FreeParameter.
(** Modelled from the spec: [FreeParameter.__init__] of
    [braket.circuits.free_parameter], which is not among the sources.
    The spec describes "a free-parameter base abstraction providing
    name-based construction"; it keeps the name it is given and reports
    no error of its own. *)
Definition __init__ (self : loc) (name : string) : M unit :=
  store self "_name" (PyStr name).

(** Modelled from the spec: the [name] accessor the instances expose
    ("inherited behavior from the base free-parameter abstraction"). *)
Definition name (self : loc) : M value := load self "_name".
End FreeParameter.

(** ** parameters.py *)

Module TypedParameter.

(** The accepted set the claims speak of. *)
Definition supported : list value :=
  [builtins.float; builtins.int; types.FloatVar; types.IntVar].

Section init.
(** [super().__init__], resolved along the method resolution order of
    the instance's class. *)
Variable super___init__ : loc → string → M unit.

Definition __init__ (self : loc) (name : string) (type : value) : M unit :=
  if negb (py_in type [builtins.float; builtins.int; types.FloatVar; types.IntVar]) then
    cls ← class_name self;
    mthrow (ValueError ("Unsupported type for " +:+ cls +:+ ": " +:+ py_str type +:+ "."))
  else
    super___init__ self name;;
    setattr self "_type" type.
End init.

(** The [type] property: [return self._type]. *)
Definition type (self : loc) : M value := load self "_type".

(** The default of the signature, [type = float]. *)
Definition type_default : value := builtins.float.

(** [cls(name)] and [cls(name, type)] for [cls] being [TypedParameter]
    or a class that inherits its constructor; the base initializer is
    that of [FreeParameter]. *)
Definition construct (cls : string) (name : string) (type : option value) : M loc :=
  instantiate cls (λ self,
    __init__ FreeParameter.__init__ self name (default type_default type)).

End TypedParameter.

(** ** Client code *)





(** Names with a leading underscore are private to the class. *)
Definition private (attr : string) : bool :=
  match attr with
  | String "_" _ => true
  | _ => false
  end.



(** ** The program-conversion context of the gate tests *)

Module autoqasm.

(** Modelled from the spec: the qubits a gate is applied to.  The
    program-building context, the gates and the serializer live in
    modules that are not among the sources; only their unit tests are.
    An integer argument such as [0] addresses the register
    [__qubits__]. *)
Inductive qubit : Type :=
| Virtual (index : nat).

(** Modelled from the spec: the statements the goldens of the spec and
    of the tests are made of. *)
Inductive statement : Type :=
| QubitDeclaration (size : nat)
| GateCall (gate : string) (targets : list qubit)
| BitDeclaration (var : string)
| MeasureAssignment (var : string) (target : qubit).

(** Modelled from the spec: the program-conversion context, which
    collects the statements in the order the gates are invoked and
    counts the measurement results it has allocated. *)
Record ProgramConversionContext : Type := {
  statements : list statement;
  results : nat
}.

(** Modelled from the spec: [aq.build_program()], the empty context. *)
Definition build_program : ProgramConversionContext :=
  {| statements := []; results := 0 |}.

(** Modelled from the spec: decimal numerals as they appear in the
    goldens. *)
Definition decimal (n : nat) : string :=
  NilZero.string_of_uint (Nat.to_uint n).

(** Modelled from the spec: "implicit result-variable naming convention
    [__bit_<n>__] for the n-th auto-allocated measurement result". *)
Definition bit_name (n : nat) : string :=
  "__bit_" +:+ decimal n +:+ "__".

Module gates.
(** Modelled from the spec: the Hadamard gate [h]. *)
Definition h (target : qubit) (ctx : ProgramConversionContext) : ProgramConversionContext :=
  {| statements := statements ctx ++ [GateCall "h" [target]];
     results := results ctx |}.

(** Modelled from the spec: the controlled-not gate [cnot]. *)
Definition cnot (control target : qubit) (ctx : ProgramConversionContext) :
    ProgramConversionContext :=
  {| statements := statements ctx ++ [GateCall "cnot" [control; target]];
     results := results ctx |}.

(** Modelled from the spec: [measure] with no variable declared for the
    result, which declares the next [__bit_<n>__] and assigns to it. *)
Definition measure (target : qubit) (ctx : ProgramConversionContext) :
    ProgramConversionContext :=
  {| statements := statements ctx ++
       [BitDeclaration (bit_name (results ctx));
        MeasureAssignment (bit_name (results ctx)) target];
     results := S (results ctx) |}.
End gates.

(** Modelled from the spec: [make_program], the program a context has
    collected. *)
Definition make_program (ctx : ProgramConversionContext) : list statement :=
  statements ctx.

(** Modelled from the spec: the indices of the virtual qubits a
    statement uses. *)
Definition virtual_indices (s : statement) : list nat :=
  match s with
  | GateCall _ targets =>
      map (λ q, match q with Virtual i => i end) targets
  | MeasureAssignment _ (Virtual i) => [i]
  | _ => []
  end.

(** Modelled from the spec: calling a converted function, as the test
    fixture [bell_state_program] does.  The body runs in a fresh
    context; when it used qubits of the register [__qubits__], the
    register is declared ahead of the statements, sized to hold the
    highest index used.  The goldens show the declaration for the
    fixture on qubits 0 and 1 and none for a program taken from the
    bare context. *)
Definition convert (body : ProgramConversionContext → ProgramConversionContext) :
    list statement :=
  let collected := make_program (body build_program) in
  match flat_map virtual_indices collected with
  | [] => collected
  | i :: rest => QubitDeclaration (S (foldr Nat.max i rest)) :: collected
  end.

(** Modelled from the spec: how a qubit is written. *)
Definition qubit_text (q : qubit) : string :=
  match q with
  | Virtual i => "__qubits__[" +:+ decimal i +:+ "]"
  end.

(** Modelled from the spec: one line of OpenQASM per statement. *)
Definition statement_text (s : statement) : string :=
  match s with
  | QubitDeclaration n => "qubit[" +:+ decimal n +:+ "] __qubits__;"
  | GateCall g targets => g +:+ " " +:+ String.concat ", " (map qubit_text targets) +:+ ";"
  | BitDeclaration v => "bit " +:+ v +:+ ";"
  | MeasureAssignment v q => v +:+ " = measure " +:+ qubit_text q +:+ ";"
  end.

(** Modelled from the spec: the lines of a serialized program, the
    version line first, then the statements in order. *)
Definition program_lines (program : list statement) : list string :=
  "OPENQASM 3.0;" :: map statement_text program.

(** Modelled from the spec: the line break between statements. *)
Definition newline : string := String "010"%char EmptyString.

(** Modelled from the spec: [to_ir], the OpenQASM 3.0 text of a program:
    the version line, then the statements, one per line, with no line
    break after the last. *)
Definition to_ir (program : list statement) : string :=
  String.concat newline (program_lines program).

(** Modelled from the spec: the fixture [bell_state_program], "a
    two-qubit program that applies a Hadamard gate then a controlled-not
    gate". *)
Definition bell_state_program : list statement :=
  convert (λ ctx, gates.cnot (Virtual 0) (Virtual 1) (gates.h (Virtual 0) ctx)).

(** The program of [test_bell_with_measure]: [h(0)], [cnot(0, 1)] and
    [measure(0)] inside [with aq.build_program()]. *)
Definition bell_with_measure : ProgramConversionContext :=
  gates.measure (Virtual 0)
    (gates.cnot (Virtual 0) (Virtual 1)
       (gates.h (Virtual 0) build_program)).

(** Modelled from the spec: one gate invocation in the body of a
    program, [h(q)], [cnot(c, t)] or [measure(q)]. *)
Inductive invocation : Type :=
| call_h (target : qubit)
| call_cnot (control target : qubit)
| call_measure (target : qubit).

(** Modelled from the spec: an invocation acting on the context. *)
Definition invoke (i : invocation) (ctx : ProgramConversionContext) :
    ProgramConversionContext :=
  match i with
  | call_h q => gates.h q ctx
  | call_cnot c t => gates.cnot c t ctx
  | call_measure q => gates.measure q ctx
  end.

(** Modelled from the spec: the invocations of a body, run in order. *)
Definition invoke_all (body : list invocation) (ctx : ProgramConversionContext) :
    ProgramConversionContext :=
  foldl (λ c i, invoke i c) ctx body.

(** The qubits a body measures, in the order it measures them. *)
Definition measured (body : list invocation) : list qubit :=
  flat_map (λ i, match i with call_measure q => [q] | _ => [] end) body.

(** The statements that belong to measurement results: the declaration
    of a bit and the assignment of a measurement to it. *)
Definition is_result (s : statement) : bool :=
  match s with
  | BitDeclaration _ | MeasureAssignment _ _ => true
  | _ => false
  end.

End autoqasm.

(** ** Code that builds several parameters *)

(** [[TypedParameter(name, type) for name, type in args]]: the
    parameters are constructed one after the other, the first failure
    ends the run. *)
Fixpoint construct_each (args : list (string * option value)) : M (list loc) :=
  match args with
  | [] => mret []
  | (name, type) :: rest =>
      p ← TypedParameter.construct "TypedParameter" name type;
      ps ← construct_each rest;
      mret (p :: ps)
  end.

(** ** types/__init__.py *)

Module types_init.

(** Why importing the package fails. *)
Inductive import_error : Type :=
| ModuleNotFoundError (module : string)
| ImportError (name module : string).

Section package.
(** The functions and classes the submodules define. *)
Variable obj : Type.

(** What a name of the package namespace is bound to: an object taken
    from a submodule, or a submodule itself, which the import system
    binds in its parent once it is loaded. *)
Inductive entry : Type :=
| Attribute (o : obj)
| Submodule (module : string).

(** The names of [from .module import n1, n2, ...], looked up and bound
    one after the other; the first that [module] does not offer raises
    [ImportError]. *)
Fixpoint import_names (module : string) (offers : gmap string obj)
    (names : list string) (ns : gmap string entry) : import_error + gmap string entry :=
  match names with
  | [] => inr ns
  | n :: rest =>
      match offers !! n with
      | Some o => import_names module offers rest (<[n := Attribute o]> ns)
      | None => inl (ImportError n module)
      end
  end.

(** [from .module import n1, n2, ...] inside the package: the submodule
    is loaded first, when there is one, and bound under its own name. *)
Definition from_import (module : string) (found : option (gmap string obj))
    (names : list string) (ns : gmap string entry) : import_error + gmap string entry :=
  match found with
  | None => inl (ModuleNotFoundError module)
  | Some offers => import_names module offers names (<[module := Submodule module]> ns)
  end.

(** The two submodules, which are not among the sources: [None] when
    the module does not exist, else the objects it offers by name. *)
Variable py_to_oqpy_module : option (gmap string obj).
Variable types_module : option (gmap string obj).

(** Running [types/__init__.py]: its two import statements, in order,
    starting from a namespace without public names. *)
Definition import_package : import_error + gmap string entry :=
  match from_import "py_to_oqpy" py_to_oqpy_module ["map_type"; "wrap_value"] ∅ with
  | inl e => inl e
  | inr ns => from_import "types" types_module ["is_qasm_type"; "qasm_range"] ns
  end.
End package.

Arguments Attribute {obj} o.
Arguments Submodule {obj} module.

End types_init.

(** * Properties *)

(** ** Values *)

Lemma py_eq_refl (x : value) : py_eq x x = true.
Proof.
  destruct x as [|b|n|s|c]; simpl.
  - reflexivity.
  - apply Bool.eqb_reflx.
  - apply Z.eqb_refl.
  - apply String.eqb_refl.
  - by apply bool_decide_eq_true_2.
Qed.

(** Only a class object is equal to a class object, and only itself. *)
Lemma py_eq_class (x : value) (c : pyclass) :
  py_eq x (PyClass c) = true → x = PyClass c.
Proof.
  destruct x; simpl; try discriminate.
  by intros ->%bool_decide_eq_true.
Qed.

(** On a list of class objects [in] is membership. *)
Lemma py_in_classes (x : value) (l : list value) :
  Forall (λ e, ∃ c, e = PyClass c) l →
  py_in x l = true ↔ x ∈ l.
Proof.
  intros Hl. unfold py_in. induction Hl as [|e l [c ->] _ IH]; simpl.
  - split; [discriminate | by intros ?%elem_of_nil].
  - rewrite orb_true_iff, IH, elem_of_cons. split.
    + intros [->%py_eq_class | ?]; auto.
    + intros [-> | ?]; [left; apply py_eq_refl | by right].
Qed.

Lemma py_in_supported (x : value) :
  py_in x TypedParameter.supported = true ↔ x ∈ TypedParameter.supported.
Proof.
  apply py_in_classes. repeat constructor; eexists; reflexivity.
Qed.

(** ** Heap operations *)

Ltac run :=
  cbv beta iota delta [mbind M_bind mret M_ret mthrow M_throw
    class_name load store remove update deref].

Lemma load_live (self : loc) (attr : string) (h : gmap loc object) (o : object) (v : value) :
  h !! self = Some o → ob_dict o !! attr = Some v →
  load self attr h = (Returned v, h).
Proof. intros Ho Hv. run. rewrite Ho. simpl. by rewrite Hv. Qed.

Lemma store_live (self : loc) (attr : string) (v : value) (h : gmap loc object) (o : object) :
  h !! self = Some o →
  store self attr v h =
    (Returned tt, <[self := Object (ob_class o) (<[attr := v]> (ob_dict o))]> h).
Proof. intros Ho. run. by rewrite Ho. Qed.

Lemma setattr_private (self : loc) (attr : string) (v : value) :
  private attr = true → setattr self attr v = store self attr v.
Proof.
  intros Hp. unfold setattr. rewrite bool_decide_eq_false_2; [done|].
  unfold properties. intros Hin.
  repeat (apply elem_of_cons in Hin as [-> | Hin]; [discriminate|]).
  by apply elem_of_nil in Hin.
Qed.


(** ** The constructor *)

Section constructor.
Import TypedParameter.
Variable super___init__ : loc → string → M unit.

Lemma init_reject (self : loc) (name : string) (type : value) (h : gmap loc object) (o : object) :
  h !! self = Some o → type ∉ supported →
  __init__ super___init__ self name type h =
    (Raised (ValueError ("Unsupported type for " +:+ ob_class o +:+ ": " +:+ py_str type +:+ ".")), h).
Proof.
  intros Ho Hty. unfold __init__.
  fold supported.
  destruct (py_in type supported) eqn:Hin.
  - by apply py_in_supported in Hin.
  - simpl. run. by rewrite Ho.
Qed.

Lemma init_accept (self : loc) (name : string) (type : value) :
  type ∈ supported →
  __init__ super___init__ self name type =
    (super___init__ self name;; setattr self "_type" type).
Proof.
  intros Hty%py_in_supported. unfold __init__. fold supported. by rewrite Hty.
Qed.
End constructor.

Lemma construct_reject (cls name : string) (type : option value) (h : gmap loc object) :
  default TypedParameter.type_default type ∉ TypedParameter.supported →
  TypedParameter.construct cls name type h =
    (Raised (ValueError ("Unsupported type for " +:+ cls +:+ ": "
                         +:+ py_str (default TypedParameter.type_default type) +:+ ".")), h).
Proof.
  intros Hty. unfold TypedParameter.construct, instantiate.
  erewrite init_reject; [|apply lookup_insert_eq|done]. simpl.
  rewrite delete_insert_eq. f_equal.
  apply delete_id, not_elem_of_dom, is_fresh.
Qed.

Lemma construct_accept (cls name : string) (type : option value) (h : gmap loc object) :
  default TypedParameter.type_default type ∈ TypedParameter.supported →
  TypedParameter.construct cls name type h =
    (Returned (fresh (dom h)),
     <[fresh (dom h) := Object cls (<["_type" := default TypedParameter.type_default type]>
                                     (<["_name" := PyStr name]> ∅))]> h).
Proof.
  intros Hty. unfold TypedParameter.construct, instantiate.
  rewrite init_accept by done.
  rewrite setattr_private by done.
  unfold FreeParameter.__init__.
  unfold mbind at 1, M_bind at 1.
  erewrite store_live by apply lookup_insert_eq. simpl.
  erewrite store_live by apply lookup_insert_eq. simpl.
  by rewrite !insert_insert_eq.
Qed.



(** The rejected values the spec lists, run through the constructor. *)
Example construct_rejects_listed_values :
  (TypedParameter.construct "TypedParameter" "theta" (Some (PyStr "float")) ∅).1 =
    Raised (ValueError "Unsupported type for TypedParameter: float.") ∧
  (TypedParameter.construct "TypedParameter" "theta" (Some (PyBool true)) ∅).1 =
    Raised (ValueError "Unsupported type for TypedParameter: True.") ∧
  (TypedParameter.construct "TypedParameter" "theta" (Some builtins.bool) ∅).1 =
    Raised (ValueError "Unsupported type for TypedParameter: <class 'bool'>.") ∧
  (TypedParameter.construct "TypedParameter" "theta" (Some builtins.complex) ∅).1 =
    Raised (ValueError "Unsupported type for TypedParameter: <class 'complex'>.") ∧
  (TypedParameter.construct "TypedParameter" "theta" (Some PyNone) ∅).1 =
    Raised (ValueError "Unsupported type for TypedParameter: None.") ∧
  (TypedParameter.construct "Angle" "theta" (Some (PyInt (-12))) ∅).1 =
    Raised (ValueError "Unsupported type for Angle: -12.").
Proof. repeat split; vm_compute; reflexivity. Qed.

(** C2.  For every [type] in the accepted set and every name,
    [TypedParameter(name, type)] returns an instance, and reading its
    [type] property gives back the very value passed in. *)
Theorem construct_supported_type
    (cls name : string) (type : value) (h : gmap loc object) :
  type ∈ TypedParameter.supported →
  ∃ (self : loc) (h' : gmap loc object),
    TypedParameter.construct cls name (Some type) h = (Returned self, h') ∧
    TypedParameter.type self h' = (Returned type, h').
Proof.
  intros Hty. eexists _, _. split.
  - by apply construct_accept.
  - eapply load_live; [apply lookup_insert_eq|]. simpl. apply lookup_insert_eq.
Qed.

Lemma construct_supported_type_witness :
  (types.IntVar ∈ TypedParameter.supported) ∧
  ∃ (self : loc) (h' : gmap loc object),
    TypedParameter.construct "TypedParameter" "n" (Some types.IntVar) ∅ = (Returned self, h') ∧
    TypedParameter.type self h' = (Returned types.IntVar, h').
Proof.
  split.
  - apply (bool_decide_unpack _); vm_compute; exact I.
  - apply construct_supported_type.
    apply (bool_decide_unpack _); vm_compute; exact I.
Defined.

(** C5.  For every name, [TypedParameter(name)], with [type] left out,
    returns an instance whose [type] property is [float]. *)
Theorem construct_default_type (name : string) (h : gmap loc object) :
  ∃ (self : loc) (h' : gmap loc object),
    TypedParameter.construct "TypedParameter" name None h = (Returned self, h') ∧
    TypedParameter.type self h' = (Returned builtins.float, h').
Proof.
  assert (Hty : default TypedParameter.type_default None ∈ TypedParameter.supported)
    by (simpl; unfold TypedParameter.type_default, TypedParameter.supported; apply list_elem_of_here).
  eexists _, _. split.
  - by apply construct_accept.
  - eapply load_live; [apply lookup_insert_eq|]. simpl. apply lookup_insert_eq.
Qed.

(** C7.  The name given to the constructor is the name the instance
    exposes, byte for byte; in particular [TypedParameter("θ").name] is
    ["θ"]. *)
Theorem construct_keeps_name
    (cls name : string) (type : option value) (h h' : gmap loc object) (self : loc) :
  TypedParameter.construct cls name type h = (Returned self, h') →
  FreeParameter.name self h' = (Returned (PyStr name), h').
Proof.
  intros Hc.
  destruct (decide (default TypedParameter.type_default type ∈ TypedParameter.supported)) as [Hty|Hty].
  - rewrite construct_accept in Hc by done. injection Hc as <- <-.
    eapply load_live; [apply lookup_insert_eq|]. simpl.
    by rewrite lookup_insert_ne, lookup_insert_eq.
  - by rewrite construct_reject in Hc.
Qed.

Lemma construct_keeps_name_witness :
  TypedParameter.construct "TypedParameter" "θ" None ∅ =
    (Returned 1%positive,
     {[ 1%positive := Object "TypedParameter"
          (<["_type" := builtins.float]> (<["_name" := PyStr "θ"]> ∅)) ]}) ∧
  FreeParameter.name 1%positive
     {[ 1%positive := Object "TypedParameter"
          (<["_type" := builtins.float]> (<["_name" := PyStr "θ"]> ∅)) ]} =
    (Returned (PyStr "θ"),
     {[ 1%positive := Object "TypedParameter"
          (<["_type" := builtins.float]> (<["_name" := PyStr "θ"]> ∅)) ]}).
Proof.
  assert (Hc : TypedParameter.construct "TypedParameter" "θ" None ∅ =
    (Returned 1%positive,
     {[ 1%positive := Object "TypedParameter"
          (<["_type" := builtins.float]> (<["_name" := PyStr "θ"]> ∅)) ]})).
  { rewrite construct_accept by (apply (bool_decide_unpack _); vm_compute; exact I).
    reflexivity. }
  split; [exact Hc|].
  exact (construct_keeps_name _ _ _ _ _ _ Hc).
Defined.

(** ** Client statements and the [_type] field *)









Lemma store_frame (self : loc) (attr : string) (v : value) (h : gmap loc object) (l : loc) :
  l ≠ self → (store self attr v h).2 !! l = h !! l.
Proof.
  intros Hl. run. destruct (h !! self); simpl; [|done].
  by rewrite lookup_insert_ne.
Qed.

Lemma setattr_frame (self : loc) (attr : string) (v : value) (h : gmap loc object) (l : loc) :
  l ≠ self → (setattr self attr v h).2 !! l = h !! l.
Proof.
  intros Hl. unfold setattr. case_bool_decide; [done|]. by apply store_frame.
Qed.




(** C8.  With an accepted type the constructor first runs the base
    initializer, on the heap it was given and with the name; if that
    raises, so does the constructor, and otherwise the one further
    change is that the instance's [_type] entry, in the heap the base
    initializer left, now holds the type.  Whatever the type, the
    constructor itself changes no other object: outside the instance
    the heap is the one the base initializer left, or the initial one
    when the type is rejected. *)
Theorem init_order_and_frame
    (super___init__ : loc → string → M unit)
    (self : loc) (name : string) (type : value) (h : gmap loc object) :
  (type ∈ TypedParameter.supported →
   match super___init__ self name h with
   | (Raised e, h1) =>
       TypedParameter.__init__ super___init__ self name type h = (Raised e, h1)
   | (Returned _, h1) =>
       match h1 !! self with
       | Some o1 =>
           TypedParameter.__init__ super___init__ self name type h =
             (Returned tt,
              <[self := Object (ob_class o1) (<["_type" := type]> (ob_dict o1))]> h1)
       | None =>
           TypedParameter.__init__ super___init__ self name type h =
             (Raised (ReferenceError self), h1)
       end
   end) ∧
  ∀ l : loc, l ≠ self →
    (TypedParameter.__init__ super___init__ self name type h).2 !! l =
    (if decide (type ∈ TypedParameter.supported)
     then (super___init__ self name h).2 else h) !! l.
Proof.
  assert (Hacc : type ∈ TypedParameter.supported →
    match super___init__ self name h with
    | (Raised e, h1) =>
        TypedParameter.__init__ super___init__ self name type h = (Raised e, h1)
    | (Returned _, h1) =>
        match h1 !! self with
        | Some o1 =>
            TypedParameter.__init__ super___init__ self name type h =
              (Returned tt,
               <[self := Object (ob_class o1) (<["_type" := type]> (ob_dict o1))]> h1)
        | None =>
            TypedParameter.__init__ super___init__ self name type h =
              (Raised (ReferenceError self), h1)
        end
    end).
  { intros Hty. rewrite init_accept by done. unfold mbind, M_bind.
    destruct (super___init__ self name h) as [[[]|e] h1]; [|done].
    rewrite setattr_private by done.
    destruct (h1 !! self) as [o1|] eqn:Hself.
    - by erewrite store_live.
    - run. by rewrite Hself. }
  split; [exact Hacc|].
  intros l Hl. destruct (decide (type ∈ TypedParameter.supported)) as [Hty|Hty].
  - specialize (Hacc Hty).
    destruct (super___init__ self name h) as [[[]|e] h1]; simpl.
    + destruct (h1 !! self) as [o1|]; rewrite Hacc; simpl; [|done].
      by rewrite lookup_insert_ne.
    + by rewrite Hacc.
  - unfold TypedParameter.__init__. fold TypedParameter.supported.
    destruct (py_in type TypedParameter.supported) eqn:Hin.
    + by apply py_in_supported in Hin.
    + simpl. run. by destruct (h !! self).
Qed.

Lemma init_order_and_frame_witness :
  (builtins.int ∈ TypedParameter.supported) ∧
  TypedParameter.__init__
      (λ self name, store self "_name" (PyStr name);; store self "_type" builtins.float)
      1%positive "theta" builtins.int
      {[ 1%positive := Object "TypedParameter" ∅; 2%positive := Object "TypedParameter" ∅ ]} =
    (Returned tt,
     <[ 1%positive := Object "TypedParameter"
          (<["_type" := builtins.int]>
             (<["_type" := builtins.float]> (<["_name" := PyStr "theta"]> ∅))) ]>
       (<[ 1%positive := Object "TypedParameter"
             (<["_type" := builtins.float]> (<["_name" := PyStr "theta"]> ∅)) ]>
          (<[ 1%positive := Object "TypedParameter" (<["_name" := PyStr "theta"]> ∅) ]>
             {[ 1%positive := Object "TypedParameter" ∅;
                2%positive := Object "TypedParameter" ∅ ]}))).
Proof.
  assert (Hty : builtins.int ∈ TypedParameter.supported)
    by (apply (bool_decide_unpack _); vm_compute; exact I).
  split; [exact Hty|].
  exact (proj1 (init_order_and_frame
           (λ self name, store self "_name" (PyStr name);; store self "_type" builtins.float)
           1%positive "theta" builtins.int
           {[ 1%positive := Object "TypedParameter" ∅; 2%positive := Object "TypedParameter" ∅ ]})
         Hty).
Defined.

(** C9.  With a type outside the accepted set the constructor raises
    before anything else happens: whatever the base initializer would
    do, the heap after the failing call is the heap before it, so the
    instance has not even received its name. *)
Theorem init_unsupported_no_mutation
    (super___init__ : loc → string → M unit)
    (self : loc) (name : string) (type : value) (h : gmap loc object) (o : object) :
  h !! self = Some o →
  type ∉ TypedParameter.supported →
  TypedParameter.__init__ super___init__ self name type h =
    (Raised (ValueError ("Unsupported type for " +:+ ob_class o +:+ ": " +:+ py_str type +:+ ".")), h).
Proof. intros Ho Hty. by apply init_reject. Qed.

Lemma init_unsupported_no_mutation_witness :
  ({[ 1%positive := Object "TypedParameter" ∅ ]} : gmap loc object) !! 1%positive
    = Some (Object "TypedParameter" ∅) ∧
  (builtins.bool ∉ TypedParameter.supported) ∧
  TypedParameter.__init__ (λ _ _ _, (Returned tt, ∅)) 1%positive "theta" builtins.bool
      {[ 1%positive := Object "TypedParameter" ∅ ]} =
    (Raised (ValueError "Unsupported type for TypedParameter: <class 'bool'>."),
     {[ 1%positive := Object "TypedParameter" ∅ ]}).
Proof.
  assert (Hty : builtins.bool ∉ TypedParameter.supported)
    by (apply (bool_decide_unpack _); vm_compute; exact I).
  split; [reflexivity|]. split; [exact Hty|].
  exact (init_unsupported_no_mutation (λ _ _ _, (Returned tt, ∅)) 1%positive "theta"
           builtins.bool {[ 1%positive := Object "TypedParameter" ∅ ]}
           (Object "TypedParameter" ∅) eq_refl Hty).
Defined.

(** ** The gate goldens *)

(** Gates add no result statement and leave the count of results
    alone; each measurement adds the declaration of the next free name
    and the assignment to it. *)
Lemma invoke_all_results
    (body : list autoqasm.invocation) (ctx : autoqasm.ProgramConversionContext) :
  List.filter autoqasm.is_result (autoqasm.statements (autoqasm.invoke_all body ctx)) =
    (List.filter autoqasm.is_result (autoqasm.statements ctx) ++
     concat (imap (λ n q,
       [autoqasm.BitDeclaration (autoqasm.bit_name (autoqasm.results ctx + n));
        autoqasm.MeasureAssignment (autoqasm.bit_name (autoqasm.results ctx + n)) q])
       (autoqasm.measured body)))%list.
Proof.
  revert ctx. induction body as [|i body IH]; intros ctx.
  - simpl. by rewrite app_nil_r.
  - unfold autoqasm.invoke_all in *. simpl foldl. rewrite IH.
    destruct i as [q|c t|q]; simpl; rewrite List.filter_app; simpl.
    + by rewrite app_nil_r.
    + by rewrite app_nil_r.
    + rewrite <- app_assoc. simpl. rewrite Nat.add_0_r. do 3 f_equal.
      f_equal. apply imap_ext. intros n q' _. simpl. by rewrite Nat.add_succ_r.
Qed.

(** In a list built from pairs, the components of the n-th pair. *)
Lemma lookup_concat_pairs {A B : Type} (f g : nat → A → B) (l : list A) (n : nat) (x : A) :
  l !! n = Some x →
  concat (imap (λ i a, [f i a; g i a]) l) !! (2 * n) = Some (f n x) ∧
  concat (imap (λ i a, [f i a; g i a]) l) !! (2 * n + 1) = Some (g n x).
Proof.
  revert f g n. induction l as [|a l IH]; intros f g [|n] Hx; simplify_eq/=.
  - done.
  - replace (n + S (n + 0)) with (S (2 * n)) by lia.
    replace (S (2 * n) + 1) with (S (2 * n + 1)) by lia.
    simpl. by apply (IH (f ∘ S) (g ∘ S)).
Qed.

(** C6.  The two-qubit Bell program, [h] on qubit 0 then [cnot] on
    qubits 0 and 1, serializes to exactly the four lines of the golden,
    separated by single line breaks and in this order. *)
Theorem bell_state_prep_golden :
  autoqasm.to_ir autoqasm.bell_state_program =
    "OPENQASM 3.0;
qubit[2] __qubits__;
h __qubits__[0];
cnot __qubits__[0], __qubits__[1];"
  ∧ autoqasm.program_lines autoqasm.bell_state_program =
      ["OPENQASM 3.0;";
       "qubit[2] __qubits__;";
       "h __qubits__[0];";
       "cnot __qubits__[0], __qubits__[1];"].
Proof. split; reflexivity. Qed.

(** C3.  [h(0)], [cnot(0, 1)] and [measure(0)], with no variable
    declared for the result, serialize to the version line, the two gate
    lines of the Bell golden, [bit __bit_0__;] and
    [__bit_0__ = measure __qubits__[0];], in this order and with nothing
    else.  In every program built from [h], [cnot] and [measure] calls,
    in whatever order, the n-th measurement, counted from 0, declares
    [bit __bit_<n>__;] and assigns its result to [__bit_<n>__], and
    these lines follow one another in the order of the measurements. *)
Theorem bell_with_measure_golden :
  autoqasm.to_ir (autoqasm.make_program autoqasm.bell_with_measure) =
    "OPENQASM 3.0;
h __qubits__[0];
cnot __qubits__[0], __qubits__[1];
bit __bit_0__;
__bit_0__ = measure __qubits__[0];"
  ∧ autoqasm.program_lines (autoqasm.make_program autoqasm.bell_with_measure) =
      ["OPENQASM 3.0;";
       "h __qubits__[0];";
       "cnot __qubits__[0], __qubits__[1];";
       "bit __bit_0__;";
       "__bit_0__ = measure __qubits__[0];"]
  ∧ autoqasm.bell_with_measure =
      autoqasm.invoke_all
        [autoqasm.call_h (autoqasm.Virtual 0);
         autoqasm.call_cnot (autoqasm.Virtual 0) (autoqasm.Virtual 1);
         autoqasm.call_measure (autoqasm.Virtual 0)]
        autoqasm.build_program
  ∧ ∀ (body : list autoqasm.invocation) (n : nat) (q : autoqasm.qubit),
      autoqasm.measured body !! n = Some q →
      map autoqasm.statement_text
          (List.filter autoqasm.is_result
             (autoqasm.make_program (autoqasm.invoke_all body autoqasm.build_program)))
        !! (2 * n) =
      Some ("bit " +:+ ("__bit_" +:+ autoqasm.decimal n +:+ "__") +:+ ";")
      ∧
      map autoqasm.statement_text
          (List.filter autoqasm.is_result
             (autoqasm.make_program (autoqasm.invoke_all body autoqasm.build_program)))
        !! (2 * n + 1) =
      Some (("__bit_" +:+ autoqasm.decimal n +:+ "__")
              +:+ " = measure " +:+ autoqasm.qubit_text q +:+ ";").
Proof.
  split; [reflexivity|]. split; [reflexivity|]. split; [reflexivity|].
  intros body n q Hq. unfold autoqasm.make_program.
  pose proof (invoke_all_results body autoqasm.build_program) as Hrow.
  simpl in Hrow. rewrite Hrow, !list_lookup_fmap.
  destruct (lookup_concat_pairs
              (λ i _, autoqasm.BitDeclaration (autoqasm.bit_name i))
              (λ i t, autoqasm.MeasureAssignment (autoqasm.bit_name i) t)
              _ n q Hq) as [-> ->].
  split; reflexivity.
Qed.

Lemma bell_with_measure_golden_witness :
  autoqasm.measured
    [autoqasm.call_measure (autoqasm.Virtual 2);
     autoqasm.call_h (autoqasm.Virtual 0);
     autoqasm.call_cnot (autoqasm.Virtual 0) (autoqasm.Virtual 1);
     autoqasm.call_measure (autoqasm.Virtual 3)] !! 1 = Some (autoqasm.Virtual 3) ∧
  map autoqasm.statement_text
      (List.filter autoqasm.is_result
         (autoqasm.make_program
            (autoqasm.invoke_all
               [autoqasm.call_measure (autoqasm.Virtual 2);
                autoqasm.call_h (autoqasm.Virtual 0);
                autoqasm.call_cnot (autoqasm.Virtual 0) (autoqasm.Virtual 1);
                autoqasm.call_measure (autoqasm.Virtual 3)]
               autoqasm.build_program)))
    !! 3 = Some "__bit_1__ = measure __qubits__[3];".
Proof.
  split; [reflexivity|].
  exact (proj2 (proj2 (proj2 (proj2 bell_with_measure_golden))
                  [autoqasm.call_measure (autoqasm.Virtual 2);
                   autoqasm.call_h (autoqasm.Virtual 0);
                   autoqasm.call_cnot (autoqasm.Virtual 0) (autoqasm.Virtual 1);
                   autoqasm.call_measure (autoqasm.Virtual 3)]
                  1 (autoqasm.Virtual 3) eq_refl)).
Defined.

(** ** Further properties of the constructor *)

(** X1.  Whatever the base initializer stores, also under [_type], once
    it has returned the constructor's own write decides the type: the
    [type] property reads the argument, every other attribute of the
    instance is as the base initializer left it, and so is every other
    object. *)
Theorem init_overrides_base_type
    (super___init__ : loc → string → M unit)
    (self : loc) (name : string) (type : value)
    (h h1 : gmap loc object) (o1 : object) :
  type ∈ TypedParameter.supported →
  super___init__ self name h = (Returned tt, h1) →
  h1 !! self = Some o1 →
  ∃ h2 : gmap loc object,
    TypedParameter.__init__ super___init__ self name type h = (Returned tt, h2) ∧
    TypedParameter.type self h2 = (Returned type, h2) ∧
    (∀ attr : string, attr ≠ "_type" →
       (load self attr h2).1 = (load self attr h1).1) ∧
    (∀ l : loc, l ≠ self → h2 !! l = h1 !! l).
Proof.
  intros Hty Hsuper Hself.
  exists (<[self := Object (ob_class o1) (<["_type" := type]> (ob_dict o1))]> h1).
  split; [|split; [|split]].
  - rewrite init_accept by done. unfold mbind, M_bind. rewrite Hsuper.
    rewrite setattr_private by done. by erewrite store_live.
  - eapply load_live; [apply lookup_insert_eq|]. apply lookup_insert_eq.
  - intros attr Hattr. run. rewrite lookup_insert_eq, Hself. simpl.
    rewrite lookup_insert_ne by done. by destruct (ob_dict o1 !! attr).
  - intros l Hl. by rewrite lookup_insert_ne.
Qed.

Lemma init_overrides_base_type_witness :
  (builtins.int ∈ TypedParameter.supported) ∧
  ∃ h2 : gmap loc object,
    TypedParameter.__init__
        (λ self name, store self "_name" (PyStr name);; store self "_type" builtins.float)
        1%positive "theta" builtins.int {[ 1%positive := Object "TypedParameter" ∅ ]}
      = (Returned tt, h2) ∧
    TypedParameter.type 1%positive h2 = (Returned builtins.int, h2).
Proof.
  assert (Hty : builtins.int ∈ TypedParameter.supported)
    by (apply (bool_decide_unpack _); vm_compute; exact I).
  split; [exact Hty|].
  assert (Hsuper :
    (λ self name, store self "_name" (PyStr name);; store self "_type" builtins.float)
      1%positive "theta" ({[ 1%positive := Object "TypedParameter" ∅ ]} : gmap loc object)
    = (Returned tt,
       {[ 1%positive := Object "TypedParameter"
            (<["_type" := builtins.float]> (<["_name" := PyStr "theta"]> ∅)) ]}))
    by (vm_compute; reflexivity).
  assert (Hself :
    ({[ 1%positive := Object "TypedParameter"
          (<["_type" := builtins.float]> (<["_name" := PyStr "theta"]> ∅)) ]}
       : gmap loc object) !! 1%positive
    = Some (Object "TypedParameter"
              (<["_type" := builtins.float]> (<["_name" := PyStr "theta"]> ∅))))
    by (vm_compute; reflexivity).
  destruct (init_overrides_base_type _ _ _ _ _ _ _ Hty Hsuper Hself)
    as (h2 & Hinit & Htype & _).
  exists h2. split; [exact Hinit | exact Htype].
Defined.

(** X2.  Parameters constructed one after the other, all with accepted
    types, are pairwise distinct new instances; each reads back its own
    name and its own type, and the instances that existed before are
    untouched. *)
Theorem construct_each_independent
    (args : list (string * option value)) (h : gmap loc object) :
  Forall (λ a, default TypedParameter.type_default a.2 ∈ TypedParameter.supported) args →
  ∃ (ps : list loc) (h' : gmap loc object),
    construct_each args h = (Returned ps, h') ∧
    length ps = length args ∧
    NoDup ps ∧
    (∀ p : loc, p ∈ ps → h !! p = None) ∧
    (∀ (i : nat) (p : loc) (name : string) (type : option value),
       ps !! i = Some p → args !! i = Some (name, type) →
       FreeParameter.name p h' = (Returned (PyStr name), h') ∧
       TypedParameter.type p h' =
         (Returned (default TypedParameter.type_default type), h')) ∧
    (∀ (l : loc) (o : object), h !! l = Some o → h' !! l = Some o).
Proof.
  revert h. induction args as [|[name type] args IH]; intros h Hargs.
  - exists [], h. repeat split; try done.
    + constructor.
    + by intros p ?%elem_of_nil.
  - apply Forall_cons in Hargs as [Hty Hargs]. simpl in Hty.
    set (p := fresh (dom h)).
    set (o := Object "TypedParameter"
                (<["_type" := default TypedParameter.type_default type]>
                   (<["_name" := PyStr name]> ∅))).
    assert (Hp : h !! p = None) by apply not_elem_of_dom, is_fresh.
    destruct (IH (<[p := o]> h) Hargs) as (ps & h' & Hrun & Hlen & Hnd & Hnew & Hread & Hold).
    exists (p :: ps), h'. split; [|split; [|split; [|split; [|split]]]].
    + simpl. unfold mbind at 1, M_bind at 1.
      rewrite construct_accept by done. fold p o.
      unfold mbind, M_bind. rewrite Hrun. reflexivity.
    + simpl. by rewrite Hlen.
    + constructor; [|done]. intros Hin%Hnew. by rewrite lookup_insert_eq in Hin.
    + intros q [->|Hq]%elem_of_cons; [done|].
      apply Hnew in Hq. destruct (decide (q = p)) as [->|Hne].
      * by rewrite lookup_insert_eq in Hq.
      * by rewrite lookup_insert_ne in Hq.
    + intros [|i] q name' type' Hq Harg; simpl in Hq, Harg.
      * injection Hq as <-. injection Harg as <- <-.
        assert (Ho : h' !! p = Some o) by apply Hold, lookup_insert_eq.
        split; (eapply load_live; [exact Ho|]); simpl.
        -- by rewrite lookup_insert_ne, lookup_insert_eq.
        -- apply lookup_insert_eq.
      * by eapply Hread.
    + intros l ol Hl. apply Hold. rewrite lookup_insert_ne; [done|].
      intros <-. congruence.
Qed.

Lemma construct_each_independent_witness :
  Forall (λ a, default TypedParameter.type_default a.2 ∈ TypedParameter.supported)
    [("theta", None); ("n", Some builtins.int)] ∧
  ∃ (ps : list loc) (h' : gmap loc object),
    construct_each [("theta", None); ("n", Some builtins.int)] ∅ = (Returned ps, h') ∧
    NoDup ps.
Proof.
  assert (Hargs : Forall (λ a, default TypedParameter.type_default a.2 ∈ TypedParameter.supported)
                    [("theta", None); ("n", Some builtins.int)]).
  { repeat constructor; apply (bool_decide_unpack _); vm_compute; exact I. }
  split; [exact Hargs|].
  destruct (construct_each_independent [("theta", None); ("n", Some builtins.int)] ∅ Hargs)
    as (ps & h' & Hrun & _ & Hnd & _).
  exists ps, h'. split; [exact Hrun | exact Hnd].
Defined.

(** X3.  The default applies only when [type] is left out: an explicit
    [None], which the annotation of the signature admits, is rejected
    like any other unsupported value, while the call without [type]
    yields a [float] parameter. *)
Theorem explicit_none_rejected (cls name : string) (h : gmap loc object) :
  TypedParameter.construct cls name (Some PyNone) h =
    (Raised (ValueError ("Unsupported type for " +:+ cls +:+ ": None.")), h) ∧
  ∃ (self : loc) (h' : gmap loc object),
    TypedParameter.construct cls name None h = (Returned self, h') ∧
    TypedParameter.type self h' = (Returned builtins.float, h').
Proof.
  split.
  - rewrite construct_reject; [done|].
    apply (bool_decide_unpack _). vm_compute. exact I.
  - eexists _, _. split.
    + apply construct_accept. apply list_elem_of_here.
    + eapply load_live; [apply lookup_insert_eq|]. apply lookup_insert_eq.
Qed.

(** ** The types package *)

Section types_package.
Import types_init.
Context {obj : Type}.


Lemma import_package_defined
    (d1 d2 : gmap string obj) (f1 f2 f3 f4 : obj) :
  d1 !! "map_type" = Some f1 → d1 !! "wrap_value" = Some f2 →
  d2 !! "is_qasm_type" = Some f3 → d2 !! "qasm_range" = Some f4 →
  import_package obj (Some d1) (Some d2) =
    inr (<["qasm_range" := Attribute f4]> (<["is_qasm_type" := Attribute f3]>
           (<["types" := Submodule "types"]>
              (<["wrap_value" := Attribute f2]> (<["map_type" := Attribute f1]>
                 (<["py_to_oqpy" := Submodule "py_to_oqpy"]> ∅)))))).
Proof.
  intros H1 H2 H3 H4. unfold import_package, from_import. simpl.
  rewrite H1, H2. simpl. by rewrite H3, H4.
Qed.

(** X5.  When the submodules define them, the package binds
    [map_type], [wrap_value], [is_qasm_type] and [qasm_range] to the very
    objects [py_to_oqpy] and [types] define under these names. *)
Theorem package_reexports_same_objects
    (d1 d2 : gmap string obj) (f1 f2 f3 f4 : obj) :
  d1 !! "map_type" = Some f1 → d1 !! "wrap_value" = Some f2 →
  d2 !! "is_qasm_type" = Some f3 → d2 !! "qasm_range" = Some f4 →
  ∃ ns : gmap string (entry obj),
    import_package obj (Some d1) (Some d2) = inr ns ∧
    ns !! "map_type" = Some (Attribute f1) ∧
    ns !! "wrap_value" = Some (Attribute f2) ∧
    ns !! "is_qasm_type" = Some (Attribute f3) ∧
    ns !! "qasm_range" = Some (Attribute f4).
Proof.
  intros H1 H2 H3 H4. eexists. split; [by apply import_package_defined|].
  repeat split; by simplify_map_eq.
Qed.


End types_package.

Lemma package_reexports_same_objects_witness :
  ({[ "map_type" := 1; "wrap_value" := 2; "_helper" := 9 ]} : gmap string nat) !! "map_type" = Some 1 ∧
  ∃ ns : gmap string (types_init.entry nat),
    types_init.import_package nat
      (Some {[ "map_type" := 1; "wrap_value" := 2; "_helper" := 9 ]})
      (Some {[ "is_qasm_type" := 3; "qasm_range" := 4 ]}) = inr ns ∧
    ns !! "map_type" = Some (types_init.Attribute 1) ∧
    ns !! "qasm_range" = Some (types_init.Attribute 4).
Proof.
  assert (H1 : ({[ "map_type" := 1; "wrap_value" := 2; "_helper" := 9 ]} : gmap string nat)
                  !! "map_type" = Some 1) by (vm_compute; reflexivity).
  assert (H2 : ({[ "map_type" := 1; "wrap_value" := 2; "_helper" := 9 ]} : gmap string nat)
                  !! "wrap_value" = Some 2) by (vm_compute; reflexivity).
  assert (H3 : ({[ "is_qasm_type" := 3; "qasm_range" := 4 ]} : gmap string nat)
                  !! "is_qasm_type" = Some 3) by (vm_compute; reflexivity).
  assert (H4 : ({[ "is_qasm_type" := 3; "qasm_range" := 4 ]} : gmap string nat)
                  !! "qasm_range" = Some 4) by (vm_compute; reflexivity).
  split; [exact H1|].
  destruct (package_reexports_same_objects _ _ _ _ _ _ H1 H2 H3 H4)
    as (ns & Hrun & Hm & _ & _ & Hq).
  exists ns. split; [exact Hrun|]. split; [exact Hm | exact Hq].
Defined.

